(** * rislive: a client for the RIPE RIS Live BGP firehose

    A shallow embedding of [rislive.go] (package [rislive]) and the
    properties its specification states about it.

    Layout: the Go data model and functions first ([Module Rislive]), then
    the definitions that follow the specification's wording ([Module
    SpecModel]), then the theorems. *)

From Stdlib Require Import ZArith List String Ascii Bool Lia.
From Stdlib Require Import QArith_base.
From Stdlib Require Import Floats.PrimFloat.
From Stdlib Require Import Numbers.DecimalString.
From stdpp Require Import base decidable option list gmap strings.

Local Open Scope string_scope.
Local Open Scope Z_scope.
Local Open Scope list_scope.

(** ** Go machine integers *)

(** [int32(z)]: the value a 32-bit two's complement integer holds. *)
Definition wrap_int32 (z : Z) : Z := (z + 2 ^ 31) mod 2 ^ 32 - 2 ^ 31.

(** Go's [int] on the 64-bit targets the package is built for. *)
Definition wrap_int (z : Z) : Z := (z + 2 ^ 63) mod 2 ^ 64 - 2 ^ 63.

Definition is_int32 (z : Z) : Prop := - 2 ^ 31 <= z < 2 ^ 31.

Module Rislive.

(** ** Data model ([rislive.go], lines 19-62) *)

(** [RisFilter]: the three filter fields of the source. *)
Record RisFilter := {
  AsPath : list string;
  InvalidTransitAS : gmap string bool;
  Prefix : list string
}.

(** [RisLive] holds a pointer to its filter; [None] is the nil pointer. *)
Record RisLive := { Filter : option RisFilter }.

Record RisAnnouncement := {
  NextHop : string;
  Prefixes : list string
}.

(** [RisMessageData].  The Go field [Type] is [DataType] here ([Type] is
    reserved).  [Path] and [Community] hold [int32] values, kept as [Z].
    [Announcements] is a slice of pointers: [None] is a nil element. *)
Record RisMessageData := {
  Timestamp : float;
  Peer : string;
  PeerASN : string;
  Id : string;
  Host : string;
  DataType : string;
  Path : list Z;
  Community : list (list Z);
  Origin : string;
  Announcements : list (option RisAnnouncement);
  Raw : string
}.

(** [RisMessage]; the Go field [Type] is [MessageType], [Data] is a pointer. *)
Record RisMessage := {
  MessageType : string;
  Data : option RisMessageData
}.

(** ** [MatchASPath] (lines 53-57) *)

Definition MatchASPath (r : RisMessageData) (c : list string) : bool := false.

(** ** [MatchPrefix] (lines 64-75) *)

(** The inner loop [for _, p := range r.Prefixes]: [true] stands for the
    [return true] that leaves the function. *)
Fixpoint MatchPrefix_inner (c : string) (ps : list string) : bool :=
  match ps with
  | [] => false
  | p :: ps' => if String.eqb c p then true else MatchPrefix_inner c ps'
  end.

(** The outer loop [for _, c := range cs]. *)
Fixpoint MatchPrefix_outer (prefixes cs : list string) : bool :=
  match cs with
  | [] => false
  | c :: cs' =>
      if MatchPrefix_inner c prefixes then true
      else MatchPrefix_outer prefixes cs'
  end.

(** The receiver is a non-nil [*RisAnnouncement]. *)
Definition MatchPrefix (r : RisAnnouncement) (cs : list string) : bool :=
  MatchPrefix_outer (Prefixes r) cs.

(** The check of one prefix against one other prefix, as [MatchPrefix]
    performs it: an announcement carrying [candidate] alone, matched against
    the one-element list [container]. *)
Definition contains (container candidate : string) : bool :=
  MatchPrefix {| NextHop := ""; Prefixes := [candidate] |} [container].

(** ** [Listen] (lines 77-117) *)

(** What one call [dec.Decode(&rm)] leaves behind: the error it returns, if
    any, and the value [rm] holds afterwards.  The JSON decoder itself is
    library code; a stream body is given by the results of the successive
    [Decode] calls made while [dec.More()] holds.  The variable [rm] is
    declared once, before the loop: a field that a record does not mention
    keeps what an earlier record put there, and that is part of the value
    given here. *)
Inductive decoded :=
| DecodeOk (rm : RisMessage)
| DecodeErr (err : string) (rm : RisMessage).

Definition body := list decoded.

(** The effects a function of the package has on its surroundings: one
    constructor per [fmt.Printf] call of [Listen], with the arguments of its
    format, and the sending of a message on a channel. *)
Inductive effect :=
| PrintFailedConnect (err : string)
| PrintFailedRead (file err : string)
| PrintFailedDecode (err : string)
| PrintBadJson (rm : RisMessage)
| PrintMessage (i : Z) (peer peerASN prefix : string)
| ChanSend (rm : RisMessage).

(** How a call ends: by returning, or by a run-time panic. *)
Inductive ending := Returned | Panicked.

(** What [Listen] reads from its surroundings: the [-risFile] flag, the
    pair [(resp, err)] that [http.Get] returns ([resp] nil, or a response
    whose [Body] is given), and the pair [(fd, err)] of [ioutil.ReadFile].
    The flags [-rislive] and [-risclient] are declared but [Listen] does
    not read them: it fetches a literal URL. *)
Record World := {
  risFile : string;
  httpGet : option body * option string;
  readFile : string -> body * option string
}.

(** Lines 108-113: the first prefix of the first announcement, [""] when
    there is none; [None] when [m.Announcements[0]] is a nil pointer, whose
    [Prefixes] cannot be read. *)
Definition firstPrefix (m : RisMessageData) : option string :=
  match Announcements m with
  | [] => Some ""
  | None :: _ => None
  | Some a :: _ =>
      match Prefixes a with
      | [] => Some ""
      | p :: _ => Some p
      end
  end.

(** Lines 97-116: the loop [for dec.More() { ... }] with its counter [i]. *)
Fixpoint decodeLoop (i : Z) (s : body) : list effect * ending :=
  match s with
  | [] => ([], Returned)
  | DecodeErr err rm :: _ =>
      ([PrintFailedDecode err; PrintBadJson rm], Returned)
  | DecodeOk rm :: s' =>
      match Data rm with
      | None => ([], Panicked)
      | Some m =>
          match firstPrefix m with
          | None => ([], Panicked)
          | Some prefix =>
              let '(out, e) := decodeLoop (wrap_int (i + 1)) s' in
              (PrintMessage i (Peer m) (PeerASN m) prefix :: out, e)
          end
      end
  end.

(** Lines 77-93, then the loop.  With [resp] nil, [defer resp.Body.Close()]
    reads a field through a nil pointer. *)
Definition Listen (r : RisLive) (w : World) : list effect * ending :=
  if (String.length (risFile w) =? 0)%nat then
    let '(resp, err) := httpGet w in
    let report :=
      match err with
      | Some e => [PrintFailedConnect e]
      | None => []
      end in
    match resp with
    | None => (report, Panicked)
    | Some b => let '(out, e) := decodeLoop 0 b in (report ++ out, e)
    end
  else
    let '(fd, err) := readFile w (risFile w) in
    let report :=
      match err with
      | Some e => [PrintFailedRead (risFile w) e]
      | None => []
      end in
    let '(out, e) := decodeLoop 0 fd in (report ++ out, e).

(** The messages a run put on a channel. *)
Definition sent (out : list effect) : list RisMessage :=
  omap (fun e => match e with ChanSend rm => Some rm | _ => None end) out.

End Rislive.

Module SpecModel.

(** ** CIDR text and containment *)

Inductive family := IPv4 | IPv6.

Definition family_eqb (f g : family) : bool :=
  match f, g with
  | IPv4, IPv4 | IPv6, IPv6 => true
  | _, _ => false
  end.

(** A parsed prefix: its family, its address as a number of [bits] bits,
    and its prefix length. *)
Record cidr := { fam : family; addr : Z; plen : Z }.

Definition bits (f : family) : Z :=
  match f with IPv4 => 32 | IPv6 => 128 end.

(** The mask of [len] leading one bits. *)
Definition mask (f : family) (len : Z) : Z :=
  Z.shiftl (Z.ones len) (bits f - len).

(** Modelled from the spec: the containment test of two parsed prefixes,
    which is not in [rislive.go]: same family, the candidate at least as
    long as the container, and the same network under the container's
    mask. *)
Definition cidr_contains (container candidate : cidr) : bool :=
  family_eqb (fam container) (fam candidate) &&
  (plen container <=? plen candidate) &&
  (Z.land (addr candidate) (mask (fam container) (plen container)) =?
   Z.land (addr container) (mask (fam container) (plen container))).

Definition digit_value (c : ascii) : option Z :=
  let n := Z.of_N (N_of_ascii c) in
  if (48 <=? n) && (n <=? 57) then Some (n - 48) else None.

Definition hex_value (c : ascii) : option Z :=
  let n := Z.of_N (N_of_ascii c) in
  if (48 <=? n) && (n <=? 57) then Some (n - 48)
  else if (97 <=? n) && (n <=? 102) then Some (n - 87)
  else if (65 <=? n) && (n <=? 70) then Some (n - 55)
  else None.

(** The number written by the digits of [s] in base [base], after [acc]. *)
Fixpoint number_from (value : ascii -> option Z) (base : Z) (s : string)
    (acc : Z) : option Z :=
  match s with
  | EmptyString => Some acc
  | String c s' =>
      match value c with
      | Some d => number_from value base s' (acc * base + d)
      | None => None
      end
  end.

(** A non-empty run of at most [width] digits. *)
Definition number (value : ascii -> option Z) (base : Z) (width : nat)
    (s : string) : option Z :=
  if (String.length s =? 0)%nat || (width <? String.length s)%nat then None
  else number_from value base s 0.

(** The fields of [s] between the occurrences of [sep]. *)
Fixpoint fields (sep : ascii) (s : string) : list string :=
  match s with
  | EmptyString => [EmptyString]
  | String c s' =>
      if Ascii.eqb c sep then EmptyString :: fields sep s'
      else match fields sep s' with
           | [] => [String c EmptyString]
           | f :: fs => String c f :: fs
           end
  end.

(** All of [os] parse, each below [bound]; the result reads them as the
    digits of one number in base [bound]. *)
Fixpoint groups (value : ascii -> option Z) (base : Z) (width : nat)
    (bound : Z) (os : list string) (acc : Z) : option Z :=
  match os with
  | [] => Some acc
  | o :: os' =>
      match number value base width o with
      | Some n =>
          if n <? bound then groups value base width bound os' (acc * bound + n)
          else None
      | None => None
      end
  end.

(** Dotted quad: four decimal fields below 256. *)
Definition parse_ipv4 (s : string) : option Z :=
  let os := fields "." s in
  if (length os =? 4)%nat then groups digit_value 10 3 256 os 0 else None.

(** The groups of an IPv6 address, with [""] where [::] stands: a leading
    or trailing [::] shows as two empty fields, of which one is kept; a
    single colon at either end is no address. *)
Definition strip_leading (gs : list string) : option (list string) :=
  match gs with
  | EmptyString :: EmptyString :: tl => Some (EmptyString :: tl)
  | EmptyString :: _ => None
  | _ => Some gs
  end.

Definition strip_trailing (gs : list string) : option (list string) :=
  match rev gs with
  | EmptyString :: EmptyString :: tl => Some (rev (EmptyString :: tl))
  | EmptyString :: _ => None
  | _ => Some gs
  end.

(** Colon-separated groups of up to four hex digits: eight of them, or
    fewer with one [::] standing for the missing zero groups. *)
Definition parse_ipv6 (s : string) : option Z :=
  match strip_leading (fields ":" s) with
  | None => None
  | Some gs =>
      match strip_trailing gs with
      | None => None
      | Some gs =>
          let gaps := length (filter (fun g => g = EmptyString) gs) in
          let n := length gs in
          if (gaps =? 0)%nat && (n =? 8)%nat then
            groups hex_value 16 4 65536 gs 0
          else if (gaps =? 1)%nat && (n <=? 8)%nat then
            groups hex_value 16 4 65536
              (flat_map
                 (fun g => if String.eqb g EmptyString
                           then repeat "0" (9 - n) else [g]) gs) 0
          else None
      end
  end.

Definition has_colon (s : string) : bool :=
  (2 <=? length (fields ":" s))%nat.

(** [address/length], the length in decimal and within the family's bits. *)
Definition parse_cidr (s : string) : option cidr :=
  match fields "/" s with
  | [a; l] =>
      let f := if has_colon a then IPv6 else IPv4 in
      match (if has_colon a then parse_ipv6 a else parse_ipv4 a),
            number digit_value 10 3 l with
      | Some ad, Some n =>
          if n <=? bits f then Some {| fam := f; addr := ad; plen := n |}
          else None
      | _, _ => None
      end
  | _ => None
  end.

(** Modelled from the spec: [contains] on text, with parse failures folded
    into "no match". *)
Definition contains_text (container candidate : string) : bool :=
  match parse_cidr container, parse_cidr candidate with
  | Some c, Some d => cidr_contains c d
  | _, _ => false
  end.

(** ** Path digestion *)

(** A leaf of a raw path as the decoder delivers it: a JSON number or a
    word.  An element of the path is a leaf or an AS-set, a sequence of
    leaves; AS-sets do not nest further. *)
Inductive leaf :=
| Number (q : Q)
| Word (s : string).

Inductive element :=
| Leaf (l : leaf)
| ASSet (ls : list leaf).

Inductive DigestError := NotNumeric (word : string).




(** A JSON number cut to its integer part, then to 32 bits. *)
Definition truncate_int32 (q : Q) : Z :=
  wrap_int32 (Z.quot (Qnum q) (Z.pos (Qden q))).

Section Digest.

(** The conversion of a numeric leaf to a 32-bit integer. *)
Variable to_int32 : Q -> Z.

(** Modelled from the spec: the leaves of one AS-set, appended in their
    order to the sequence built so far; a word stops the walk.  The
    function [digestPath] is not in [rislive.go], only its test is. *)
Fixpoint digest_set (ls : list leaf) (acc : list Z) : DigestError + list Z :=
  match ls with
  | [] => inr acc
  | Number q :: ls' => digest_set ls' (acc ++ [to_int32 q])
  | Word s :: _ => inl (NotNumeric s)
  end.

(** Modelled from the spec: the walk over the raw path, left to right,
    which [rislive.go] does not have. *)
Fixpoint digest_from (p : list element) (acc : list Z)
    : DigestError + list Z :=
  match p with
  | [] => inr acc
  | Leaf (Number q) :: p' => digest_from p' (acc ++ [to_int32 q])
  | Leaf (Word s) :: _ => inl (NotNumeric s)
  | ASSet ls :: p' =>
      match digest_set ls acc with
      | inr acc' => digest_from p' acc'
      | inl e => inl e
      end
  end.

(** Modelled from the spec: [digest(rawPath)], absent from [rislive.go]. *)
Definition digest (p : list element) : DigestError + list Z :=
  digest_from p [].


End Digest.






(** ** Filter predicates *)

(** Modelled from the spec: the transit-AS test, which [rislive.go] does
    not have (it only declares the filter field): some element of the
    digested path other than the one at index 0 is in the set. *)
Fixpoint any_member (s : gset Z) (l : list Z) : bool :=
  match l with
  | [] => false
  | a :: l' => if decide (a ∈ s) then true else any_member s l'
  end.

Definition transitASMatch (digested : list Z) (invalidTransitAS : gset Z)
    : bool :=
  if decide (invalidTransitAS = ∅) then false
  else any_member invalidTransitAS (tail digested).

(** What the specification asks of the AS-path fragment test: [frag]
    occurs in [path] as a run of adjacent elements, in order. *)
Definition occurs_in {A : Type} (frag path : list A) : Prop :=
  exists before after, path = before ++ frag ++ after.

(** The decimal text of an AS number. *)
Definition asn_text (z : Z) : string :=
  NilEmpty.string_of_int (Z.to_int z).

End SpecModel.

(** * The test file of package [main]

    The tests call functions of their own package, which are not part of
    the sources at hand; each test takes the function it calls (and the
    types it only passes through) as a parameter.  A run of a test is the
    list of the cases for which it calls [t.Errorf], by their [desc]. *)
Module Tests.

Import Rislive.

(** [cmp.Equal] on two [*string]: both nil, or both set to equal strings. *)
Definition ptr_equal (x y : option string) : bool :=
  match x, y with
  | None, None => true
  | Some a, Some b => String.eqb a b
  | _, _ => false
  end.

(** ** [TestMatchPrefix] (test file, lines 114-178) *)
Module MatchPrefixTest.

Record case := {
  desc : string;
  ann : RisAnnouncement;
  candidates : list string;
  want : bool
}.

Definition p4 : RisAnnouncement :=
  {| NextHop := "1.2.3.4"; Prefixes := ["192.168.0.0/16"; "10.0.0.0/24"] |}.

Definition p6 : RisAnnouncement :=
  {| NextHop := "2001:db8:123::1";
     Prefixes := ["2001:db8::/32"; "2001:db8:48::/48"] |}.

Definition tests : list case := [
  {| desc := "Success v4"; ann := p4;
     candidates := ["192.168.0.0/16"; "100.64.0.0/10"]; want := true |};
  {| desc := "Success v6"; ann := p6;
     candidates := ["2001:db8:32::/32"; "2001:db8:48::/48"]; want := true |};
  {| desc := "Success v4 match in mixed family"; ann := p6;
     candidates := ["192.169.0.0/16"; "2001:db8:48::/48"]; want := true |};
  {| desc := "Success v6 match in mixed family"; ann := p6;
     candidates := ["2001:db8::/32"; "192.169.0.0/16"]; want := true |};
  {| desc := "Failure v4"; ann := p4;
     candidates := ["197.168.0.0/16"; "10.64.0.0/10"]; want := false |};
  {| desc := "Failure v6"; ann := p6;
     candidates := ["2001:db8:32::/32"; "2001:db9:48::/48"]; want := false |};
  {| desc := "Failure v4 with v6 mach"; ann := p4;
     candidates := ["2001:db8:32::/32"; "2001:db8:48::/48"]; want := false |};
  {| desc := "Failure v6 with v4 match"; ann := p6;
     candidates := ["192.168.0.0/16"; "100.64.0.0/10"]; want := false |}
].

Section Run.

(** The method [MatchPrefix] of an announcement, under test. *)
Variable MatchPrefix : RisAnnouncement -> list string -> bool.

(** The loop [for _, test := range tests]. *)
Fixpoint run (ts : list case) : list string :=
  match ts with
  | [] => []
  | test :: ts' =>
      let got := MatchPrefix (ann test) (candidates test) in
      if negb (Bool.eqb got (want test)) then desc test :: run ts'
      else run ts'
  end.

Definition TestMatchPrefix : list string := run tests.

End Run.

End MatchPrefixTest.

(** ** [TestInvalidTransitAS] (test file, lines 235-258) *)
Module InvalidTransitASTest.

Section Run.

(** [RisMessageData] of package [main], its value [msg01], and the method
    [InvalidTransitAS] under test. *)
Variable RisMessageData : Type.
Variable msg01 : RisMessageData.
Variable InvalidTransitAS : RisMessageData -> gmap Z bool -> bool.

Record case := {
  desc : string;
  msg : RisMessageData;
  candidates : gmap Z bool;
  want : bool
}.

Definition tests : list case := [
  {| desc := "Success - AS4 in transit position"; msg := msg01;
     candidates := {[4 := true; 14 := true; 0 := true]}; want := true |};
  {| desc := "Success - AS10 not in transit position"; msg := msg01;
     candidates := {[10 := true; 14 := true; 0 := true]}; want := true |}
].

(** The loop; the body of [if got != test.want { }] is empty. *)
Fixpoint run (ts : list case) : list string :=
  match ts with
  | [] => []
  | test :: ts' =>
      let got := InvalidTransitAS (msg test) (candidates test) in
      if negb (Bool.eqb got (want test)) then run ts' else run ts'
  end.

Definition TestInvalidTransitAS : list string := run tests.

End Run.

End InvalidTransitASTest.

(** ** [TestNewRisLive] (test file, lines 83-112) *)
Module NewRisLiveTest.

Section Run.

(** [RisFilter] and [RisLive] of package [main], the filter value
    [RisFilter{ASPath: []int32{1}}] of the one case, the two fields of
    [RisLive] the test reads, and the constructor under test, which takes
    five pointers and returns one. *)
Variable RisFilter : Type.
Variable RisLive : Type.
Variable rf : RisFilter.
Variable URL : RisLive -> option string.
Variable UA : RisLive -> option string.
Variable NewRisLive :
  option string -> option string -> option string -> option RisFilter ->
  option Z -> option RisLive.

(** The one case of the table, "Success - nil file": the call, then the
    comparison of [got.URL] and [got.UA] with the wanted pointers; reading
    a field of a nil [got] panics. *)
Definition TestNewRisLive : list string * ending :=
  match NewRisLive (Some "http://blah") None (Some "foo") (Some rf)
          (Some 10) with
  | None => ([], Panicked)
  | Some got =>
      if negb (ptr_equal (URL got) (Some "http://blah")) &&
         negb (ptr_equal (UA got) (Some "foo"))
      then (["Success - nil file"], Returned)
      else ([], Returned)
  end.

End Run.

End NewRisLiveTest.

End Tests.

(** * Vocabulary of the statements about [Listen] *)

Import Rislive.

(** A record as the feed documents it: it has a [data] object, and no
    element of its [announcements] array is [null]. *)
Definition well_formed (rm : RisMessage) : Prop :=
  exists m, Data rm = Some m /\ Forall is_Some (Announcements m).

(** The source [w] delivers the body [b] without a transport error: through
    [http.Get] when the [-risFile] flag is empty, from the file otherwise. *)
Definition feeds (w : World) (b : body) : Prop :=
  (risFile w = "" /\ httpGet w = (Some b, None)) \/
  (risFile w <> "" /\ readFile w (risFile w) = (b, None)).

(** The source [w] delivers the body [b], with or without an error beside
    it: the response of [http.Get] has this body, or the file yields it. *)
Definition delivers (w : World) (b : body) : Prop :=
  (risFile w = "" /\ fst (httpGet w) = Some b) \/
  (risFile w <> "" /\ fst (readFile w (risFile w)) = b).

(** The line the transport step prints: none when it succeeds. *)
Definition transport_report (w : World) : list effect :=
  if (String.length (risFile w) =? 0)%nat then
    match snd (httpGet w) with
    | Some e => [PrintFailedConnect e]
    | None => []
    end
  else
    match snd (readFile w (risFile w)) with
    | Some e => [PrintFailedRead (risFile w) e]
    | None => []
    end.

(** The line printed for the [k]-th record of a feed (counting from 0). *)
Definition messageLine (k : nat) (rm : RisMessage) : list effect :=
  match Data rm with
  | Some m =>
      [PrintMessage (wrap_int (Z.of_nat k)) (Peer m) (PeerASN m)
         (default "" (firstPrefix m))]
  | None => []
  end.

Fixpoint messageLinesFrom (k : nat) (ms : list RisMessage) : list effect :=
  match ms with
  | [] => []
  | rm :: ms' => messageLine k rm ++ messageLinesFrom (S k) ms'
  end.

Definition messageLines (ms : list RisMessage) : list effect :=
  messageLinesFrom 0 ms.

(** The record of the one-message sample feed; its timestamp is the
    binary64 value nearest to 1558620047.08. *)
Definition sample_data : RisMessageData := {|
  Timestamp := 0x1.739a9e3c51eb8p+30%float;
  Peer := "196.60.9.165";
  PeerASN := "57695";
  Id := "196.60.9.165-1558620047.08-11924763";
  Host := "rrc19";
  DataType := "UPDATE";
  Path := [57695; 37650];
  Community := [[57695; 12000]; [57695; 12001]];
  Origin := "igp";
  Announcements :=
    [Some {| NextHop := "196.60.9.165"; Prefixes := ["196.50.70.0/24"] |}];
  Raw := "FFFFFFFFFFFFFFFFFFFFFFFFFFFFFFFF003E02000000234001010040020A02020000E15F00009312400304C43C09A5E00808E15F2EE0E15F2EE118C43246"
|}.

Definition sample_message : RisMessage :=
  {| MessageType := "ris_message"; Data := Some sample_data |}.

(** A run that reads the file [testdata/1-msg]. *)
Definition file_world (b : body) : World := {|
  risFile := "testdata/1-msg";
  httpGet := (None, Some "unused");
  readFile := fun _ => (b, None)
|}.

Definition no_filter : RisLive := {| Filter := None |}.

(** A stream whose second record cannot be decoded; a third one follows. *)
Definition broken_body : body :=
  map DecodeOk [sample_message] ++
  DecodeErr "unexpected end of JSON input" sample_message ::
  [DecodeOk sample_message].


(** * Vocabulary of the statements about the filter functions *)

Import SpecModel.

(** The first test message of the package: [Path: 1..8, Origin: "8"], the
    other fields at their zero values. *)
Definition msg01 : RisMessageData := {|
  Timestamp := 0%float;
  Peer := ""; PeerASN := ""; Id := ""; Host := ""; DataType := "";
  Path := [1; 2; 3; 4; 5; 6; 7; 8];
  Community := [];
  Origin := "8";
  Announcements := [];
  Raw := ""
|}.


(** A numeric path element holding the AS number [z]. *)
Definition asn (z : Z) : element := Leaf (Number (inject_Z z)).

(** The path of the sample feed with an AS-set:
    [2497, 6453, 18705, 26281, [13340]]. *)
Definition as_set_path : list element :=
  map asn [2497; 6453; 18705; 26281] ++ [ASSet [Number (inject_Z 13340)]].



(** * Vocabulary of the further statements about [Listen] *)

(** A record the loop can print: it has a [data] object, and its first
    announcement, if there is one, is not [null]. *)
Definition printable (rm : RisMessage) : Prop :=
  exists m, Data rm = Some m /\ is_Some (firstPrefix m).

(** A record on which the loop body dereferences nil: it has no [data]
    object, or the first element of its [announcements] is [null]. *)
Definition crashing (rm : RisMessage) : Prop :=
  Data rm = None \/
  exists m tl, Data rm = Some m /\ Announcements m = None :: tl.

(** Two records that agree on what the loop reads of a record: whether
    there is a [data] object, the peer, the peer ASN, and the first prefix
    of the first announcement. *)
Definition same_view (rm rm' : RisMessage) : Prop :=
  match Data rm, Data rm' with
  | None, None => True
  | Some m, Some m' =>
      Peer m = Peer m' /\ PeerASN m = PeerASN m' /\
      firstPrefix m = firstPrefix m'
  | _, _ => False
  end.

(** A message without a [data] object. *)
Definition no_data_message : RisMessage :=
  {| MessageType := "ris_error"; Data := None |}.

(** The sample record with another path, origin and raw payload. *)
Definition sample_message_other_payload : RisMessage :=
  {| MessageType := "ris_message";
     Data := Some {|
       Timestamp := 0%float;
       Peer := "196.60.9.165";
       PeerASN := "57695";
       Id := "";
       Host := "rrc00";
       DataType := "UPDATE";
       Path := [57695; 1; 2; 3];
       Community := [];
       Origin := "incomplete";
       Announcements :=
         [Some {| NextHop := "10.0.0.1";
                  Prefixes := ["196.50.70.0/24"; "10.0.0.0/8"] |}; None];
       Raw := "00"
     |} |}.

(** A run over HTTP whose response carries the body [b]. *)
Definition http_world (b : body) (err : option string) : World := {|
  risFile := "";
  httpGet := (Some b, err);
  readFile := fun _ => ([], Some "unused")
|}.

(** A file that was read in part: content and an error. *)
Definition partial_file_world (b : body) : World := {|
  risFile := "testdata/10-msg";
  httpGet := (None, Some "unused");
  readFile := fun _ => (b, Some "unexpected EOF")
|}.

(** A record that announces nothing (a withdrawal). *)
Definition withdrawal_message : RisMessage :=
  {| MessageType := "ris_message";
     Data := Some {|
       Timestamp := 0%float;
       Peer := "192.0.2.77";
       PeerASN := "64496";
       Id := "";
       Host := "rrc00";
       DataType := "UPDATE";
       Path := [];
       Community := [];
       Origin := "";
       Announcements := [];
       Raw := ""
     |} |}.

(** The values [rm] holds after three successful calls of [Decode]. *)
Definition three_records : list RisMessage :=
  [sample_message; sample_message_other_payload; withdrawal_message].

(** * Properties of [MatchPrefix] *)

Lemma MatchPrefix_inner_true (c : string) (ps : list string) :
  MatchPrefix_inner c ps = true <-> In c ps.
Proof.
  induction ps as [|p ps IH]; simpl.
  - split; [discriminate | tauto].
  - destruct (String.eqb_spec c p) as [->|Hne].
    + split; auto.
    + rewrite IH. split; [auto | intros [Heq|Hin]; congruence].
Qed.

Lemma MatchPrefix_outer_true (prefixes cs : list string) :
  MatchPrefix_outer prefixes cs = true <->
  exists c, In c cs /\ In c prefixes.
Proof.
  induction cs as [|c cs IH]; simpl.
  - split; [discriminate | intros (c & [] & _)].
  - destruct (MatchPrefix_inner c prefixes) eqn:Hin.
    + apply MatchPrefix_inner_true in Hin. split; eauto.
    + rewrite IH. split.
      * intros (c' & Hc' & Hp). eauto.
      * intros (c' & [<-|Hc'] & Hp); [|eauto].
        apply MatchPrefix_inner_true in Hp. congruence.
Qed.

Lemma contains_eqb (container candidate : string) :
  contains container candidate = String.eqb container candidate.
Proof.
  unfold contains, MatchPrefix. simpl.
  destruct (String.eqb container candidate); reflexivity.
Qed.

(** C9: [MatchPrefix] answers [true] exactly when some candidate string is
    equal, as a string, to some prefix string of the announcement.  So it
    answers [false] when either list is empty, it does not see that
    192.168.0.0/24 lies inside 192.168.0.0/16 (nor the converse), and it
    reports a match for two identical strings that are not CIDR text. *)
Theorem MatchPrefix_exact_string_match :
  (forall (r : RisAnnouncement) (cs : list string),
      MatchPrefix r cs = true <->
      exists c p, In c cs /\ In p (Prefixes r) /\ c = p) /\
  (forall r, MatchPrefix r [] = false) /\
  (forall nh cs, MatchPrefix {| NextHop := nh; Prefixes := [] |} cs = false) /\
  MatchPrefix {| NextHop := "1.2.3.4"; Prefixes := ["192.168.0.0/16"] |}
    ["192.168.0.0/24"] = false /\
  MatchPrefix {| NextHop := "1.2.3.4"; Prefixes := ["192.168.0.0/24"] |}
    ["192.168.0.0/16"] = false /\
  (forall nh s, MatchPrefix {| NextHop := nh; Prefixes := [s] |} [s] = true) /\
  parse_cidr "192.b.0.0/16" = None /\
  MatchPrefix {| NextHop := "1.2.3.4"; Prefixes := ["192.b.0.0/16"] |}
    ["192.b.0.0/16"] = true.
Proof.
  split; [|split; [|split; [|split; [|split; [|split; [|split]]]]]];
    try reflexivity.
  - intros r cs. unfold MatchPrefix. rewrite MatchPrefix_outer_true.
    split.
    + intros (c & Hc & Hp). exists c, c. auto.
    + intros (c & p & Hc & Hp & ->). eauto.
  - intros nh cs. unfold MatchPrefix. simpl.
    induction cs as [|c cs IH]; simpl; auto.
  - intros nh s. unfold MatchPrefix. simpl. rewrite String.eqb_refl.
    reflexivity.
Qed.

(** * Properties of [MatchASPath] *)

(** C10: [MatchASPath] answers [false] for every message and every list of
    candidates, the empty one included. *)
Theorem MatchASPath_always_false :
  forall (r : RisMessageData) (c : list string), MatchASPath r c = false.
Proof. intros r c. reflexivity. Qed.

(** * Properties of [Listen] *)

Lemma wrap_int_succ (a : Z) : wrap_int (wrap_int a + 1) = wrap_int (a + 1).
Proof.
  unfold wrap_int. f_equal.
  replace ((a + 2 ^ 63) mod 2 ^ 64 - 2 ^ 63 + 1 + 2 ^ 63)
    with ((a + 2 ^ 63) mod 2 ^ 64 + 1) by lia.
  rewrite Zplus_mod_idemp_l. f_equal. lia.
Qed.

(** Below 2^63 the counter of the loop is the index of the record. *)
Lemma wrap_int_small (a : Z) : - 2 ^ 63 <= a < 2 ^ 63 -> wrap_int a = a.
Proof. intros H. unfold wrap_int. rewrite Z.mod_small; lia. Qed.

Lemma well_formed_firstPrefix (m : RisMessageData) :
  Forall is_Some (Announcements m) -> is_Some (firstPrefix m).
Proof.
  unfold firstPrefix. intros H.
  destruct (Announcements m) as [|[a|] l]; eauto.
  - destruct (Prefixes a); eauto.
  - inversion H as [|? ? [x Hx] ?]. discriminate.
Qed.

(** The loop on a prefix of well-formed records, followed by any stream. *)
Lemma decodeLoop_app (pre : list RisMessage) (s : body) (k : nat) :
  Forall well_formed pre ->
  decodeLoop (wrap_int (Z.of_nat k)) (map DecodeOk pre ++ s) =
  (messageLinesFrom k pre ++
     fst (decodeLoop (wrap_int (Z.of_nat (k + length pre))) s),
   snd (decodeLoop (wrap_int (Z.of_nat (k + length pre))) s)).
Proof.
  revert k. induction pre as [|rm pre IH]; intros k Hwf.
  - simpl. rewrite Nat.add_0_r. destruct (decodeLoop _ s). reflexivity.
  - inversion Hwf as [|? ? (m & Hm & Hann) Hpre]; subst.
    destruct (well_formed_firstPrefix m Hann) as [p Hp].
    cbn [map app decodeLoop length].
    rewrite Hm, Hp, wrap_int_succ.
    replace (Z.of_nat k + 1) with (Z.of_nat (S k)) by lia.
    rewrite (IH (S k) Hpre).
    replace (S k + length pre)%nat with (k + S (length pre))%nat by lia.
    cbn [messageLinesFrom]. unfold messageLine. rewrite Hm, Hp.
    reflexivity.
Qed.

Lemma messageLinesFrom_length (ms : list RisMessage) (k : nat) :
  Forall well_formed ms -> length (messageLinesFrom k ms) = length ms.
Proof.
  intros Hwf. revert k.
  induction Hwf as [|rm ms (m & Hm & _) _ IH]; intros k; simpl; auto.
  unfold messageLine. rewrite Hm. simpl. auto.
Qed.

Lemma messageLinesFrom_lookup (ms : list RisMessage) (k j : nat) rm m :
  Forall well_formed ms ->
  ms !! j = Some rm -> Data rm = Some m ->
  messageLinesFrom k ms !! j =
  Some (PrintMessage (wrap_int (Z.of_nat (k + j))) (Peer m) (PeerASN m)
          (default "" (firstPrefix m))).
Proof.
  intros Hwf. revert k j.
  induction Hwf as [|rm0 ms (m0 & Hm0 & _) _ IH]; intros k j Hj Hm.
  - discriminate.
  - simpl. unfold messageLine. rewrite Hm0. destruct j as [|j]; simpl in *.
    + injection Hj as ->. rewrite Nat.add_0_r. congruence.
    + rewrite (IH (S k) j Hj Hm). do 3 f_equal. lia.
Qed.

Lemma messageLinesFrom_sent (ms : list RisMessage) (k : nat) :
  sent (messageLinesFrom k ms) = [].
Proof.
  revert k. induction ms as [|rm ms IH]; intros k; simpl; auto.
  unfold sent in *. rewrite omap_app, IH.
  unfold messageLine. destruct (Data rm); reflexivity.
Qed.

(** [Listen] on a source without transport error is the loop on its body. *)
Lemma Listen_feeds (r : RisLive) (w : World) (b : body) :
  feeds w b -> Listen r w = decodeLoop 0 b.
Proof.
  unfold feeds, Listen.
  intros [[Hf Hg]|[Hf Hr]].
  - rewrite Hf, Hg. simpl. destruct (decodeLoop 0 b). reflexivity.
  - rewrite Hr. destruct (risFile w) as [|c s]; [congruence|].
    simpl. destruct (decodeLoop 0 b). reflexivity.
Qed.

(** No statement of [Listen] sends on a channel. *)
Lemma decodeLoop_sent (s : body) (i : Z) : sent (fst (decodeLoop i s)) = [].
Proof.
  revert i. induction s as [|[rm|err rm] s IH]; intros i; simpl; auto.
  destruct (Data rm) as [m|]; simpl; auto.
  destruct (firstPrefix m); simpl; auto.
  specialize (IH (wrap_int (i + 1))).
  destruct (decodeLoop (wrap_int (i + 1)) s). simpl in *. exact IH.
Qed.

Lemma Listen_sent (r : RisLive) (w : World) : sent (fst (Listen r w)) = [].
Proof.
  unfold Listen. destruct (String.length (risFile w) =? 0)%nat.
  - destruct (httpGet w) as [[b|] [e|]]; simpl; auto;
      pose proof (decodeLoop_sent b 0) as H;
      destruct (decodeLoop 0 b); simpl in *; auto.
  - destruct (readFile w (risFile w)) as [fd [e|]];
      pose proof (decodeLoop_sent fd 0) as H;
      destruct (decodeLoop 0 fd); simpl in *; auto.
Qed.

Lemma sample_well_formed : well_formed sample_message.
Proof.
  exists sample_data. split; [reflexivity|].
  repeat constructor. eexists. reflexivity.
Defined.

Lemma file_world_feeds (b : body) : feeds (file_world b) b.
Proof. right. split; [discriminate | reflexivity]. Defined.

Lemma well_formed_printable (rm : RisMessage) :
  well_formed rm -> printable rm.
Proof.
  intros (m & Hm & Hann). exists m. split; [exact Hm|].
  apply well_formed_firstPrefix. exact Hann.
Qed.

(** The loop on a prefix of printable records, followed by any stream. *)
Lemma decodeLoop_app_printable (pre : list RisMessage) (s : body) (k : nat) :
  Forall printable pre ->
  decodeLoop (wrap_int (Z.of_nat k)) (map DecodeOk pre ++ s) =
  (messageLinesFrom k pre ++
     fst (decodeLoop (wrap_int (Z.of_nat (k + length pre))) s),
   snd (decodeLoop (wrap_int (Z.of_nat (k + length pre))) s)).
Proof.
  revert k. induction pre as [|rm pre IH]; intros k Hp.
  - simpl. rewrite Nat.add_0_r. destruct (decodeLoop _ s). reflexivity.
  - inversion Hp as [|? ? (m & Hm & [p Hfp]) Hpre]; subst.
    cbn [map app decodeLoop length].
    rewrite Hm, Hfp, wrap_int_succ.
    replace (Z.of_nat k + 1) with (Z.of_nat (S k)) by lia.
    rewrite (IH (S k) Hpre).
    replace (S k + length pre)%nat with (k + S (length pre))%nat by lia.
    cbn [messageLinesFrom]. unfold messageLine. rewrite Hm, Hfp.
    reflexivity.
Qed.

Lemma messageLinesFrom_length_printable (ms : list RisMessage) (k : nat) :
  Forall printable ms -> length (messageLinesFrom k ms) = length ms.
Proof.
  intros Hp. revert k.
  induction Hp as [|rm ms (m & Hm & _) _ IH]; intros k; simpl; auto.
  unfold messageLine. rewrite Hm. simpl. auto.
Qed.

Lemma messageLinesFrom_lookup_printable (ms : list RisMessage) (k j : nat)
    rm m :
  Forall printable ms ->
  ms !! j = Some rm -> Data rm = Some m ->
  messageLinesFrom k ms !! j =
  Some (PrintMessage (wrap_int (Z.of_nat (k + j))) (Peer m) (PeerASN m)
          (default "" (firstPrefix m))).
Proof.
  intros Hp. revert k j.
  induction Hp as [|rm0 ms (m0 & Hm0 & _) _ IH]; intros k j Hj Hm.
  - discriminate.
  - simpl. unfold messageLine. rewrite Hm0. destruct j as [|j]; simpl in *.
    + injection Hj as ->. rewrite Nat.add_0_r. congruence.
    + rewrite (IH (S k) j Hj Hm). do 3 f_equal. lia.
Qed.

Lemma firstPrefix_text (m : RisMessageData) :
  default "" (firstPrefix m) =
  match Announcements m with
  | Some a :: _ => match Prefixes a with p :: _ => p | [] => "" end
  | _ => ""
  end.
Proof.
  unfold firstPrefix. destruct (Announcements m) as [|[a|] tl]; try reflexivity.
  destruct (Prefixes a); reflexivity.
Qed.

(** C3, as the code has it: on a feed on which [Decode] succeeds N times
    and then the stream ends, read without transport error, and such that
    after each call [rm] holds a [data] object whose first announcement is
    not [null], [Listen] prints exactly N lines, in the order of the feed,
    and returns.  The j-th line carries the counter j and the peer, the
    peer ASN and the first prefix of the first announcement that [rm]
    holds after the j-th call; the prefix is empty when [rm] then holds no
    announcement or a first announcement without prefixes.  It sends
    nothing on any channel. *)
Theorem Listen_prints_every_record (r : RisLive) (w : World)
    (ms : list RisMessage) :
  feeds w (map DecodeOk ms) ->
  Forall printable ms ->
  exists out,
    Listen r w = (out, Returned) /\
    length out = length ms /\
    sent out = [] /\
    forall j rm m,
      ms !! j = Some rm -> Data rm = Some m ->
      out !! j =
      Some (PrintMessage (wrap_int (Z.of_nat j)) (Peer m) (PeerASN m)
              match Announcements m with
              | Some a :: _ =>
                  match Prefixes a with p :: _ => p | [] => "" end
              | _ => ""
              end).
Proof.
  intros Hfeed Hp. exists (messageLines ms).
  rewrite (Listen_feeds r w _ Hfeed).
  pose proof (decodeLoop_app_printable ms [] 0 Hp) as H.
  rewrite app_nil_r in H. simpl in H. rewrite app_nil_r in H.
  change (wrap_int 0) with 0 in H.
  split; [exact H|]. unfold messageLines.
  split; [apply messageLinesFrom_length_printable; exact Hp|].
  split; [apply messageLinesFrom_sent|].
  intros j rm m Hj Hm. rewrite <- firstPrefix_text.
  apply (messageLinesFrom_lookup_printable ms 0 j rm m Hp Hj Hm).
Qed.

Lemma three_records_printable : Forall printable three_records.
Proof.
  repeat constructor; eexists; (split; [reflexivity | eexists; reflexivity]).
Defined.

(** Three records: the second has a [null] second announcement, the third
    announces nothing. *)
Lemma Listen_prints_every_record_witness :
  exists out,
    Listen no_filter (file_world (map DecodeOk three_records)) =
      (out, Returned) /\
    length out = 3%nat /\
    sent out = [] /\
    out !! 0%nat =
      Some (PrintMessage 0 "196.60.9.165" "57695" "196.50.70.0/24") /\
    out !! 1%nat =
      Some (PrintMessage 1 "196.60.9.165" "57695" "196.50.70.0/24") /\
    out !! 2%nat = Some (PrintMessage 2 "192.0.2.77" "64496" "").
Proof.
  destruct (Listen_prints_every_record no_filter
              (file_world (map DecodeOk three_records)) three_records
              (file_world_feeds _) three_records_printable)
    as (out & Hrun & Hlen & Hsent & Hline).
  exists out. split; [exact Hrun|]. split; [exact Hlen|].
  split; [exact Hsent|].
  split; [exact (Hline 0%nat _ _ eq_refl eq_refl)|].
  split; [exact (Hline 1%nat _ _ eq_refl eq_refl)|].
  exact (Hline 2%nat _ _ eq_refl eq_refl).
Defined.

(** C3, as stated, fails: on the one-record sample feed [Listen] prints one
    line and returns, and no record has been put on a queue. *)
Lemma Listen_one_record_nothing_queued :
  feeds (file_world [DecodeOk sample_message]) [DecodeOk sample_message] /\
  well_formed sample_message /\
  Listen no_filter (file_world [DecodeOk sample_message]) =
    ([PrintMessage 0 "196.60.9.165" "57695" "196.50.70.0/24"], Returned) /\
  length
    (sent (fst (Listen no_filter (file_world [DecodeOk sample_message]))))
  <> 1%nat.
Proof.
  split; [apply file_world_feeds|].
  split; [apply sample_well_formed|].
  split; [reflexivity | simpl; discriminate].
Qed.

(** C5 on the HTTP path: when [http.Get] fails, [resp] is nil; [Listen]
    prints the failure and then panics on [resp.Body], it does not return. *)
Theorem Listen_connect_failure_panics :
  forall (r : RisLive) (err : string) (rf : string -> body * option string),
    Listen r {| risFile := ""; httpGet := (None, Some err); readFile := rf |}
    = ([PrintFailedConnect err], Panicked).
Proof. intros r err rf. reflexivity. Qed.

(** The sibling path: a file that cannot be read is reported and then
    treated as an empty feed. *)
Lemma Listen_read_failure_is_empty_feed :
  forall (r : RisLive) (c : ascii) (f err : string) g,
    Listen r {| risFile := String c f; httpGet := g;
                readFile := fun _ => ([], Some err) |}
    = ([PrintFailedRead (String c f) err], Returned).
Proof. intros r c f err g. reflexivity. Qed.

(** [Listen] is the transport report followed by the loop on the body. *)
Lemma Listen_delivers (r : RisLive) (w : World) (b : body) :
  delivers w b ->
  Listen r w =
  (transport_report w ++ fst (decodeLoop 0 b), snd (decodeLoop 0 b)).
Proof.
  unfold delivers, Listen, transport_report.
  intros [[Hf Hg]|[Hf Hr]].
  - rewrite Hf. simpl. destruct (httpGet w) as [resp e]. simpl in Hg.
    subst resp. destruct (decodeLoop 0 b). reflexivity.
  - destruct (risFile w) as [|c s] eqn:Hs; [congruence|]. simpl.
    destruct (readFile w (String c s)) as [fd e]. simpl in Hr. subst fd.
    destruct (decodeLoop 0 b). reflexivity.
Qed.

(** C8: when a [Decode] call fails, [Listen] prints the error and the
    content decoded so far and returns at once: after the transport report
    and the lines of the records before the failure come these two lines
    and nothing else, and what follows the failure in the stream plays no
    part in the run. *)
Theorem Listen_decode_error_is_fatal (r : RisLive) (w : World)
    (pre : list RisMessage) (err : string) (rm : RisMessage) (rest : body) :
  delivers w (map DecodeOk pre ++ DecodeErr err rm :: rest) ->
  Forall well_formed pre ->
  Listen r w =
    (transport_report w ++ messageLines pre ++
       [PrintFailedDecode err; PrintBadJson rm], Returned)
  /\ length (messageLines pre) = length pre
  /\ decodeLoop 0 (map DecodeOk pre ++ DecodeErr err rm :: rest) =
     decodeLoop 0 (map DecodeOk pre ++ [DecodeErr err rm]).
Proof.
  intros Hdel Hwf.
  assert (Hloop : forall tl,
    decodeLoop 0 (map DecodeOk pre ++ DecodeErr err rm :: tl) =
    (messageLines pre ++ [PrintFailedDecode err; PrintBadJson rm], Returned)).
  { intros tl. exact (decodeLoop_app pre (DecodeErr err rm :: tl) 0 Hwf). }
  rewrite (Listen_delivers r w _ Hdel), !Hloop.
  split; [reflexivity|].
  split; [apply messageLinesFrom_length; exact Hwf | reflexivity].
Qed.

Lemma file_world_delivers (b : body) : delivers (file_world b) b.
Proof. right. split; [discriminate | reflexivity]. Defined.

Lemma Listen_decode_error_is_fatal_witness :
  Listen no_filter (file_world broken_body) =
    ([PrintMessage 0 "196.60.9.165" "57695" "196.50.70.0/24";
      PrintFailedDecode "unexpected end of JSON input";
      PrintBadJson sample_message], Returned).
Proof.
  exact (proj1 (Listen_decode_error_is_fatal no_filter
                  (file_world broken_body)
                  [sample_message] "unexpected end of JSON input"
                  sample_message [DecodeOk sample_message]
                  (file_world_delivers broken_body)
                  (@List.Forall_cons _ well_formed _ _ sample_well_formed
                     (@List.Forall_nil _ well_formed)))).
Defined.

(** * [MatchPrefix] against the specification's containment *)

Lemma contains_true_iff (container candidate : string) :
  contains container candidate = true <-> container = candidate.
Proof. rewrite contains_eqb. apply String.eqb_eq. Qed.

Lemma cidr_contains_refl (c : cidr) : cidr_contains c c = true.
Proof.
  unfold cidr_contains.
  rewrite Z.leb_refl, Z.eqb_refl. destruct (fam c); reflexivity.
Qed.

(** A match reported on CIDR text is a containment: the test is narrower
    than the specification's, never wider. *)
Lemma contains_sound (container candidate : string) :
  is_Some (parse_cidr container) ->
  contains container candidate = true ->
  contains_text container candidate = true.
Proof.
  intros [c Hc] H. apply contains_true_iff in H. subst candidate.
  unfold contains_text. rewrite Hc. apply cidr_contains_refl.
Qed.

(** The table of [TestMatchPrefix]: every expected value is the one that
    string equality gives; in the case "Failure v6" the specification's
    containment would hold for the first candidate. *)
Example TestMatchPrefix_table :
  let p4 := {| NextHop := "1.2.3.4";
               Prefixes := ["192.168.0.0/16"; "10.0.0.0/24"] |} in
  let p6 := {| NextHop := "2001:db8:123::1";
               Prefixes := ["2001:db8::/32"; "2001:db8:48::/48"] |} in
  MatchPrefix p4 ["192.168.0.0/16"; "100.64.0.0/10"] = true /\
  MatchPrefix p6 ["2001:db8:32::/32"; "2001:db8:48::/48"] = true /\
  MatchPrefix p6 ["192.169.0.0/16"; "2001:db8:48::/48"] = true /\
  MatchPrefix p6 ["2001:db8::/32"; "192.169.0.0/16"] = true /\
  MatchPrefix p4 ["197.168.0.0/16"; "10.64.0.0/10"] = false /\
  MatchPrefix p6 ["2001:db8:32::/32"; "2001:db9:48::/48"] = false /\
  MatchPrefix p4 ["2001:db8:32::/32"; "2001:db8:48::/48"] = false /\
  MatchPrefix p6 ["192.168.0.0/16"; "100.64.0.0/10"] = false /\
  contains_text "2001:db8::/32" "2001:db8:32::/32" = true.
Proof. vm_compute. repeat split. Qed.

(** C1, as stated, fails: 192.168.0.0/24 lies inside 192.168.0.0/16 (same
    family, longer prefix, same network under the /16 mask), and the check
    answers [false]. *)
Lemma contains_rejects_subnet :
  contains_text "192.168.0.0/16" "192.168.0.0/24" = true /\
  contains "192.168.0.0/16" "192.168.0.0/24" = false.
Proof. split; vm_compute; reflexivity. Qed.

(** C1, as the code has it: the check answers [true] exactly when the two
    strings are equal.  So it answers [false] for 192.168.0.0/16 against
    192.168.0.0/24 and against 197.168.0.0/16, and for every pair of
    prefixes of different families. *)
Theorem contains_is_string_equality :
  (forall container candidate : string,
      contains container candidate = true <-> container = candidate) /\
  contains "192.168.0.0/16" "192.168.0.0/24" = false /\
  contains "192.168.0.0/16" "197.168.0.0/16" = false /\
  (forall container candidate c d,
      parse_cidr container = Some c -> parse_cidr candidate = Some d ->
      fam c <> fam d -> contains container candidate = false).
Proof.
  split; [exact contains_true_iff|].
  split; [reflexivity|]. split; [reflexivity|].
  intros container candidate c d Hc Hd Hfam.
  destruct (contains container candidate) eqn:H; [|reflexivity].
  apply contains_true_iff in H. congruence.
Qed.

Lemma contains_is_string_equality_witness :
  fam <$> parse_cidr "192.168.0.0/16" = Some IPv4 /\
  fam <$> parse_cidr "2001:db8::/32" = Some IPv6 /\
  contains "192.168.0.0/16" "2001:db8::/32" = false.
Proof.
  split; [reflexivity|]. split; [reflexivity|].
  refine (proj2 (proj2 (proj2 contains_is_string_equality))
            "192.168.0.0/16" "2001:db8::/32"
            {| fam := IPv4; addr := 3232235520; plen := 16 |}
            {| fam := IPv6; addr := 42540766411282592856903984951653826560;
               plen := 32 |} _ _ _).
  - reflexivity.
  - reflexivity.
  - discriminate.
Defined.

(** C6, as stated, fails: 192.b.0.0/16 is not CIDR text, and the check of
    it against itself answers [true]. *)
Lemma contains_accepts_identical_malformed :
  parse_cidr "192.b.0.0/16" = None /\
  contains "192.b.0.0/16" "192.b.0.0/16" = true.
Proof. split; vm_compute; reflexivity. Qed.

(** C6, as the code has it: with malformed text on either side the check
    answers [false] when the two strings differ and [true] when they are
    the same string; being a comparison of strings, it has no error to
    raise. *)
Theorem contains_malformed_text (container candidate : string) :
  parse_cidr container = None \/ parse_cidr candidate = None ->
  (container <> candidate -> contains container candidate = false) /\
  (container = candidate -> contains container candidate = true).
Proof.
  intros _. split.
  - intros Hne. destruct (contains container candidate) eqn:H; [|reflexivity].
    apply contains_true_iff in H. contradiction.
  - apply contains_true_iff.
Qed.

Lemma contains_malformed_text_witness :
  contains "192.b.0.0/16" "192.168.0.0/24" = false.
Proof.
  refine (proj1 (contains_malformed_text "192.b.0.0/16" "192.168.0.0/24"
                   (or_introl eq_refl)) _).
  discriminate.
Defined.

(** * [MatchASPath] against the specification's fragment test *)

(** C2 at its failing inputs: the empty fragment occurs in every path, and
    3 4 5 occurs in the path 1..8 of the first test message; [MatchASPath]
    answers [false] for both. *)
Theorem MatchASPath_misses_fragments :
  occurs_in [] (Path msg01) /\
  MatchASPath msg01 [] = false /\
  occurs_in ["3"; "4"; "5"] (map asn_text (Path msg01)) /\
  MatchASPath msg01 ["3"; "4"; "5"] = false.
Proof.
  split; [exists [], (Path msg01); reflexivity|].
  split; [reflexivity|].
  split; [|reflexivity].
  exists ["1"; "2"], ["6"; "7"; "8"]. vm_compute. reflexivity.
Qed.

(** * Path digestion (modelled from the specification) *)

Section DigestFacts.

Variable to_int32 : Q -> Z.






End DigestFacts.

Lemma wrap_int32_range (z : Z) : is_int32 (wrap_int32 z).
Proof.
  unfold is_int32, wrap_int32.
  pose proof (Z.mod_pos_bound (z + 2 ^ 31) (2 ^ 32) ltac:(lia)). lia.
Qed.

Lemma truncate_int32_range (q : Q) : is_int32 (truncate_int32 q).
Proof. apply wrap_int32_range. Qed.









(** The paths of the package's tests and of the sample feeds. *)
Example digest_plain_path :
  digest truncate_int32 (map asn [1; 2; 3; 4; 5; 6; 7; 8]) =
  inr [1; 2; 3; 4; 5; 6; 7; 8].
Proof. vm_compute. reflexivity. Qed.

Example digest_words :
  digest truncate_int32
    [Leaf (Word "An"); Leaf (Word "ASN"); Leaf (Word "LIST");
     Leaf (Word "HERE")] = inl (NotNumeric "An").
Proof. vm_compute. reflexivity. Qed.

Example digest_as_set :
  digest truncate_int32 as_set_path = inr [2497; 6453; 18705; 26281; 13340].
Proof. vm_compute. reflexivity. Qed.

Example digest_word_after_numbers :
  digest truncate_int32 [asn 1; ASSet [Number (inject_Z 2); Word "x"]; asn 3]
  = inl (NotNumeric "x").
Proof. vm_compute. reflexivity. Qed.

Example truncate_fraction :
  truncate_int32 (Qmake 57695 1) = 57695 /\
  truncate_int32 (Qmake 7 2) = 3 /\
  truncate_int32 (Qmake (-7) 2) = -3.
Proof. vm_compute. repeat split. Qed.

(** * The transit-AS test (modelled from the specification) *)

Lemma any_member_true (s : gset Z) (l : list Z) :
  any_member s l = true <-> exists a, a ∈ l /\ a ∈ s.
Proof.
  induction l as [|a l IH]; simpl.
  - split; [discriminate|]. intros (a & Ha & _). inversion Ha.
  - destruct (decide (a ∈ s)) as [Hin|Hout].
    + split; auto. intros _. exists a. split; [constructor | exact Hin].
    + rewrite IH. split.
      * intros (b & Hb & Hs). exists b. split; [constructor; exact Hb | exact Hs].
      * intros (b & Hb & Hs). inversion Hb; subst; [contradiction|eauto].
Qed.

Lemma lookup_tail_succ (l : list Z) (i : nat) : tail l !! i = l !! S i.
Proof. destruct l; reflexivity. Qed.

(** C7: the test looks at every element of the digested path but the one
    at index 0; it answers [false] for the empty set, and for a non-empty
    set it answers [true] exactly when some element at an index above 0 is
    in the set. *)
Theorem transitASMatch_spec :
  (forall digested : list Z, transitASMatch digested ∅ = false) /\
  (forall (digested : list Z) (invalid : gset Z),
      invalid <> ∅ ->
      (transitASMatch digested invalid = true <->
       exists i a, (0 < i)%nat /\ digested !! i = Some a /\ a ∈ invalid)) /\
  (forall (a : Z) (tl : list Z) (invalid : gset Z),
      transitASMatch (a :: tl) invalid = transitASMatch (0 :: tl) invalid).
Proof.
  split; [|split].
  - intros digested. reflexivity.
  - intros digested invalid Hne. unfold transitASMatch.
    destruct (decide (invalid = ∅)) as [->|_]; [contradiction|].
    rewrite any_member_true. split.
    + intros (a & Ha & Hs). apply list_elem_of_lookup in Ha as [i Hi].
      exists (S i), a. rewrite <- lookup_tail_succ. split; [lia|auto].
    + intros (i & a & Hpos & Hi & Hs). destruct i as [|i]; [lia|].
      exists a. split; [|exact Hs].
      apply list_elem_of_lookup. exists i. rewrite lookup_tail_succ. exact Hi.
  - intros a tl invalid. reflexivity.
Qed.

Lemma transitASMatch_spec_witness :
  transitASMatch [12; 701; 1; 4] {[32; 1]} = true <->
  exists i a, (0 < i)%nat /\ [12; 701; 1; 4] !! i = Some a /\ a ∈ ({[32; 1]} : gset Z).
Proof.
  apply (proj1 (proj2 transitASMatch_spec) [12; 701; 1; 4] {[32; 1]}).
  intros Hempty.
  assert (H : 1 ∈ ({[32; 1]} : gset Z)) by set_solver.
  rewrite Hempty in H. set_solver.
Defined.

(** The tables of the package's tests and of the specification. *)
Example transitASMatch_tables :
  transitASMatch [1; 2; 3; 4; 5; 6; 7; 8] {[4]} = true /\
  transitASMatch [12; 701; 1; 4] {[32; 1]} = true /\
  transitASMatch [12; 701; 5; 4] {[32; 1]} = false /\
  transitASMatch [12; 701; 5; 4] ∅ = false /\
  transitASMatch [1; 2; 3; 4; 5; 6; 7; 8] {[1]} = false.
Proof. vm_compute. repeat split. Qed.

(** * Further properties of [MatchPrefix] *)

(** X1: The two lists play the same part: the answer is the same when the
    announcement's prefixes and the candidates change places. *)
Theorem MatchPrefix_symmetric :
  forall (nh nh' : string) (ps cs : list string),
    MatchPrefix {| NextHop := nh; Prefixes := ps |} cs =
    MatchPrefix {| NextHop := nh'; Prefixes := cs |} ps.
Proof.
  intros nh nh' ps cs. unfold MatchPrefix. simpl.
  apply Bool.eq_true_iff_eq. rewrite !MatchPrefix_outer_true.
  split; intros (c & H1 & H2); exists c; auto.
Qed.

Lemma MatchPrefix_outer_app (ps cs1 cs2 : list string) :
  MatchPrefix_outer ps (cs1 ++ cs2) =
  MatchPrefix_outer ps cs1 || MatchPrefix_outer ps cs2.
Proof.
  induction cs1 as [|c cs1 IH]; simpl; [reflexivity|].
  destruct (MatchPrefix_inner c ps); [reflexivity | exact IH].
Qed.

(** X2: A list put together from two parts matches exactly when one of the
    parts does, on the side of the candidates and on the side of the
    announcement's prefixes alike. *)
Theorem MatchPrefix_app :
  forall (nh : string) (ps1 ps2 cs1 cs2 : list string),
    MatchPrefix {| NextHop := nh; Prefixes := ps1 |} (cs1 ++ cs2) =
      MatchPrefix {| NextHop := nh; Prefixes := ps1 |} cs1 ||
      MatchPrefix {| NextHop := nh; Prefixes := ps1 |} cs2 /\
    MatchPrefix {| NextHop := nh; Prefixes := ps1 ++ ps2 |} cs1 =
      MatchPrefix {| NextHop := nh; Prefixes := ps1 |} cs1 ||
      MatchPrefix {| NextHop := nh; Prefixes := ps2 |} cs1.
Proof.
  intros nh ps1 ps2 cs1 cs2. unfold MatchPrefix. simpl. split.
  - apply MatchPrefix_outer_app.
  - apply Bool.eq_true_iff_eq.
    rewrite Bool.orb_true_iff, !MatchPrefix_outer_true. split.
    + intros (c & Hc & Hp). apply in_app_or in Hp as [Hp|Hp]; eauto.
    + intros [(c & Hc & Hp)|(c & Hc & Hp)]; exists c;
        (split; [exact Hc | apply in_or_app; auto]).
Qed.

(** X3: Only the strings that occur count, not their order nor how often they
    occur: a match survives when both lists are replaced by lists that
    contain at least the same strings. *)
Theorem MatchPrefix_monotone (r r' : RisAnnouncement) (cs cs' : list string) :
  (forall c, In c cs -> In c cs') ->
  (forall p, In p (Prefixes r) -> In p (Prefixes r')) ->
  MatchPrefix r cs = true -> MatchPrefix r' cs' = true.
Proof.
  intros Hcs Hps. unfold MatchPrefix. rewrite !MatchPrefix_outer_true.
  intros (c & Hc & Hp). exists c. auto.
Qed.

Lemma MatchPrefix_monotone_witness :
  MatchPrefix {| NextHop := "1.2.3.4";
                 Prefixes := ["10.0.0.0/24"; "192.168.0.0/16";
                              "10.0.0.0/24"] |}
    ["100.64.0.0/10"; "192.168.0.0/16"] = true.
Proof.
  apply (MatchPrefix_monotone
           {| NextHop := "1.2.3.4";
              Prefixes := ["192.168.0.0/16"; "10.0.0.0/24"] |}
           _ ["192.168.0.0/16"; "100.64.0.0/10"] _).
  - intros c [<-|[<-|[]]]; simpl; auto.
  - intros p [<-|[<-|[]]]; simpl; auto.
  - reflexivity.
Defined.

(** * Further properties of [Listen] *)

Lemma firstPrefix_None (m : RisMessageData) :
  firstPrefix m = None <-> exists tl, Announcements m = None :: tl.
Proof.
  unfold firstPrefix. destruct (Announcements m) as [|[a|] tl].
  - split; [discriminate | intros (tl & H); discriminate].
  - destruct (Prefixes a); (split; [discriminate|intros (tl' & H); discriminate]).
  - split; eauto.
Qed.

Lemma crashing_decodeLoop (rm : RisMessage) (s : body) (i : Z) :
  crashing rm -> decodeLoop i (DecodeOk rm :: s) = ([], Panicked).
Proof.
  intros [Hnone|(m & tl & Hm & Hann)]; simpl.
  - rewrite Hnone. reflexivity.
  - rewrite Hm. assert (H : firstPrefix m = None)
      by (apply firstPrefix_None; eauto).
    rewrite H. reflexivity.
Qed.

(** X4: A record without a [data] object, or whose first announcement is
    [null], stops the run with a panic: the lines of the records before it
    have been printed, none is printed for it or for what follows. *)
Theorem Listen_panics_on_crashing_record (r : RisLive) (w : World)
    (pre : list RisMessage) (rm : RisMessage) (rest : body) :
  delivers w (map DecodeOk pre ++ DecodeOk rm :: rest) ->
  Forall printable pre ->
  crashing rm ->
  Listen r w = (transport_report w ++ messageLines pre, Panicked).
Proof.
  intros Hdel Hpre Hcrash.
  rewrite (Listen_delivers r w _ Hdel).
  pose proof (decodeLoop_app_printable pre (DecodeOk rm :: rest) 0 Hpre) as H.
  change (wrap_int (Z.of_nat 0)) with 0 in H. rewrite H.
  rewrite (crashing_decodeLoop rm rest _ Hcrash). simpl.
  rewrite app_nil_r. reflexivity.
Qed.

Lemma Listen_panics_on_crashing_record_witness :
  Listen no_filter
    (file_world [DecodeOk sample_message; DecodeOk no_data_message;
                 DecodeOk sample_message]) =
  ([PrintMessage 0 "196.60.9.165" "57695" "196.50.70.0/24"], Panicked).
Proof.
  apply (Listen_panics_on_crashing_record no_filter
           (file_world [DecodeOk sample_message; DecodeOk no_data_message;
                        DecodeOk sample_message])
           [sample_message] no_data_message [DecodeOk sample_message]).
  - apply file_world_delivers.
  - constructor; [|constructor].
    exists sample_data. split; [reflexivity | eexists; reflexivity].
  - left. reflexivity.
Defined.

Lemma decodeLoop_numbering (s : body) (k j : nat) i peer peerASN prefix :
  fst (decodeLoop (wrap_int (Z.of_nat k)) s) !! j =
    Some (PrintMessage i peer peerASN prefix) ->
  i = wrap_int (Z.of_nat (k + j)).
Proof.
  revert k j. induction s as [|[rm|err rm] s IH]; intros k j; simpl.
  - discriminate.
  - destruct (Data rm) as [m|]; [|discriminate].
    destruct (firstPrefix m) as [p|]; [|discriminate].
    rewrite wrap_int_succ.
    replace (Z.of_nat k + 1) with (Z.of_nat (S k)) by lia.
    specialize (IH (S k)).
    destruct (decodeLoop (wrap_int (Z.of_nat (S k))) s) as [out e].
    destruct j as [|j]; simpl.
    + intros [= <- _ _ _]. rewrite Nat.add_0_r. reflexivity.
    + intros H. rewrite (IH j H). f_equal. lia.
  - destruct j as [|[|j]]; discriminate.
Qed.

(** X6: On every stream, well-formed or not, the message lines are numbered
    by their position: the line that stands at place j after the transport
    report carries the counter j (as a 64-bit integer; j itself below
    2^63). *)
Theorem Listen_numbers_lines_by_position (r : RisLive) (w : World)
    (b : body) (j : nat) (i : Z) (peer peerASN prefix : string) :
  delivers w b ->
  fst (Listen r w) !! (length (transport_report w) + j)%nat =
    Some (PrintMessage i peer peerASN prefix) ->
  i = wrap_int (Z.of_nat j) /\ (Z.of_nat j < 2 ^ 63 -> i = Z.of_nat j).
Proof.
  intros Hdel. rewrite (Listen_delivers r w _ Hdel). simpl.
  rewrite lookup_app_r by lia.
  replace (length (transport_report w) + j - length (transport_report w))%nat
    with j by lia.
  intros H. apply (decodeLoop_numbering b 0 j) in H. simpl in H.
  split; [exact H|]. intros Hsmall. rewrite H. apply wrap_int_small. lia.
Qed.

Lemma Listen_numbers_lines_by_position_witness :
  1 = wrap_int (Z.of_nat 1) /\ (Z.of_nat 1 < 2 ^ 63 -> 1 = Z.of_nat 1).
Proof.
  apply (Listen_numbers_lines_by_position no_filter
           (partial_file_world
              [DecodeOk sample_message; DecodeOk sample_message])
           [DecodeOk sample_message; DecodeOk sample_message]
           1 1 "196.60.9.165" "57695" "196.50.70.0/24").
  - right. split; [discriminate | reflexivity].
  - reflexivity.
Defined.

Lemma decodeLoop_same_view (ms ms' : list RisMessage) (i : Z) :
  Forall2 same_view ms ms' ->
  decodeLoop i (map DecodeOk ms) = decodeLoop i (map DecodeOk ms').
Proof.
  intros H. revert i.
  induction H as [|rm rm' ms ms' Hv _ IH]; intros i; simpl; [reflexivity|].
  unfold same_view in Hv.
  destruct (Data rm) as [m|], (Data rm') as [m'|]; try contradiction;
    [|reflexivity].
  destruct Hv as (-> & -> & ->). rewrite IH. reflexivity.
Qed.

(** X7: What a run prints depends on nothing but the peer, the peer ASN and
    the first prefix of the first announcement of each record: two feeds
    whose records agree on these give the same run, whatever the filters
    and whatever the paths, origins, communities, further announcements
    and raw payloads. *)
Theorem Listen_reads_three_fields (r r' : RisLive) (w w' : World)
    (ms ms' : list RisMessage) :
  feeds w (map DecodeOk ms) ->
  feeds w' (map DecodeOk ms') ->
  Forall2 same_view ms ms' ->
  Listen r w = Listen r' w'.
Proof.
  intros Hw Hw' Hv.
  rewrite (Listen_feeds r w _ Hw), (Listen_feeds r' w' _ Hw').
  apply decodeLoop_same_view. exact Hv.
Qed.

Lemma Listen_reads_three_fields_witness :
  Listen no_filter (file_world (map DecodeOk [sample_message])) =
  Listen {| Filter := Some {| AsPath := ["57695"]; InvalidTransitAS := ∅;
                              Prefix := ["10.0.0.0/8"] |} |}
    (http_world (map DecodeOk [sample_message_other_payload]) None).
Proof.
  apply (Listen_reads_three_fields _ _ _ _
           [sample_message] [sample_message_other_payload]).
  - apply file_world_feeds.
  - left. split; reflexivity.
  - constructor; [|constructor]. repeat split.
Defined.

(** X8: The flag alone chooses the source: with [-risFile] set, the run is
    that of the file's content and [http.Get] plays no part; with the flag
    empty, the run is that of the response and no file is read. *)
Theorem Listen_source_by_flag (r r' : RisLive) (w w' : World) :
  risFile w = risFile w' ->
  (risFile w <> "" -> readFile w (risFile w) = readFile w' (risFile w)) ->
  (risFile w = "" -> httpGet w = httpGet w') ->
  Listen r w = Listen r' w'.
Proof.
  intros Hf Hfile Hhttp. unfold Listen. rewrite <- Hf.
  destruct (risFile w) as [|c s] eqn:Hs; simpl.
  - rewrite <- (Hhttp eq_refl). reflexivity.
  - rewrite <- Hfile by discriminate. reflexivity.
Qed.

Lemma Listen_source_by_flag_witness :
  Listen no_filter (file_world [DecodeOk sample_message]) =
  Listen no_filter
    {| risFile := "testdata/1-msg";
       httpGet := (Some [DecodeOk no_data_message], None);
       readFile := fun _ => ([DecodeOk sample_message], None) |}.
Proof.
  apply Listen_source_by_flag.
  - reflexivity.
  - intros _. reflexivity.
  - intros H. discriminate H.
Defined.

(** X9: Records are handled one after the other: what is printed for a feed
    of printable records is the beginning of what is printed for any
    stream that starts with these records. *)
Theorem Listen_output_extends (r : RisLive) (w w' : World)
    (ms : list RisMessage) (s : body) :
  feeds w (map DecodeOk ms) ->
  feeds w' (map DecodeOk ms ++ s) ->
  Forall printable ms ->
  exists more, fst (Listen r w') = fst (Listen r w) ++ more.
Proof.
  intros Hw Hw' Hp.
  rewrite (Listen_feeds r w _ Hw), (Listen_feeds r w' _ Hw').
  pose proof (decodeLoop_app_printable ms s 0 Hp) as H.
  pose proof (decodeLoop_app_printable ms [] 0 Hp) as H0.
  rewrite app_nil_r in H0.
  change (wrap_int (Z.of_nat 0)) with 0 in H, H0. rewrite H, H0. simpl.
  rewrite app_nil_r. eauto.
Qed.

Lemma Listen_output_extends_witness :
  exists more,
    fst (Listen no_filter (file_world broken_body)) =
    fst (Listen no_filter (file_world (map DecodeOk [sample_message])))
    ++ more.
Proof.
  apply (Listen_output_extends no_filter _ _ [sample_message]
           (DecodeErr "unexpected end of JSON input" sample_message ::
            [DecodeOk sample_message])).
  - apply file_world_feeds.
  - apply (file_world_feeds broken_body).
  - constructor; [|constructor].
    exists sample_data. split; [reflexivity | eexists; reflexivity].
Defined.

(** X10: A transport error that comes with a body (a response beside the error
    of [http.Get], content beside the error of [ReadFile]) is reported and
    changes nothing else: the run is the failure line followed by the run
    on the same body delivered without error. *)
Theorem Listen_transport_error_only_reported (r : RisLive) (w w0 : World)
    (b : body) :
  delivers w b ->
  feeds w0 b ->
  Listen r w = (transport_report w ++ fst (Listen r w0), snd (Listen r w0)).
Proof.
  intros Hdel Hfeed.
  rewrite (Listen_delivers r w _ Hdel), (Listen_feeds r w0 _ Hfeed).
  reflexivity.
Qed.

Lemma Listen_transport_error_only_reported_witness :
  Listen no_filter (partial_file_world [DecodeOk sample_message]) =
  ([PrintFailedRead "testdata/10-msg" "unexpected EOF";
    PrintMessage 0 "196.60.9.165" "57695" "196.50.70.0/24"], Returned).
Proof.
  apply (Listen_transport_error_only_reported no_filter
           (partial_file_world [DecodeOk sample_message])
           (file_world [DecodeOk sample_message])
           [DecodeOk sample_message]).
  - right. split; [discriminate | reflexivity].
  - apply file_world_feeds.
Defined.

Lemma decodeLoop_panics_only (s : body) (i : Z) :
  snd (decodeLoop i s) = Panicked ->
  exists pre rm rest,
    s = map DecodeOk pre ++ DecodeOk rm :: rest /\
    Forall printable pre /\ crashing rm.
Proof.
  revert i. induction s as [|[rm|err rm] s IH]; intros i; simpl;
    try discriminate.
  destruct (Data rm) as [m|] eqn:Hm.
  - destruct (firstPrefix m) as [p|] eqn:Hp.
    + specialize (IH (wrap_int (i + 1))).
      destruct (decodeLoop (wrap_int (i + 1)) s) as [out e]. simpl in *.
      intros He. destruct (IH He) as (pre & rm' & rest & -> & Hpre & Hc).
      exists (rm :: pre), rm', rest. split; [reflexivity|].
      split; [|exact Hc]. constructor; [|exact Hpre].
      exists m. split; [exact Hm | eexists; exact Hp].
    + intros _. exists [], rm, s. split; [reflexivity|].
      split; [constructor|]. right.
      apply firstPrefix_None in Hp as [tl Htl]. eauto.
  - intros _. exists [], rm, s. split; [reflexivity|].
    split; [constructor | left; exact Hm].
Qed.

(** X5: once a body has been obtained, a run ends in a panic for one reason
    only: it has met, after printable records only, a record without a
    [data] object or with a [null] first announcement. *)
Theorem Listen_panics_only_on_crashing_record (r : RisLive) (w : World)
    (b : body) :
  delivers w b ->
  snd (Listen r w) = Panicked ->
  exists pre rm rest,
    b = map DecodeOk pre ++ DecodeOk rm :: rest /\
    Forall printable pre /\ crashing rm.
Proof.
  intros Hdel. rewrite (Listen_delivers r w _ Hdel). simpl.
  apply decodeLoop_panics_only.
Qed.

Lemma Listen_panics_only_on_crashing_record_witness :
  exists pre rm rest,
    [DecodeOk sample_message; DecodeOk no_data_message] =
      map DecodeOk pre ++ DecodeOk rm :: rest /\
    Forall printable pre /\ crashing rm.
Proof.
  apply (Listen_panics_only_on_crashing_record no_filter
           (file_world [DecodeOk sample_message; DecodeOk no_data_message])).
  - apply file_world_delivers.
  - reflexivity.
Defined.

(** * Properties of the tests *)

Lemma InvalidTransitASTest_run_nil (T : Type)
    (f : T -> gmap Z bool -> bool)
    (ts : list (Tests.InvalidTransitASTest.case T)) :
  Tests.InvalidTransitASTest.run T f ts = [].
Proof.
  induction ts as [|test ts IH]; simpl; [reflexivity|].
  destruct (negb _); exact IH.
Qed.

(** X11: [TestInvalidTransitAS] cannot fail: whatever the method under test
    answers in its two cases, the test reports no error, because the
    branch taken on a wrong answer is empty. *)
Theorem TestInvalidTransitAS_never_fails :
  forall (T : Type) (msg01 : T) (InvalidTransitAS : T -> gmap Z bool -> bool),
    Tests.InvalidTransitASTest.TestInvalidTransitAS T msg01 InvalidTransitAS
    = [].
Proof.
  intros T msg01 f. apply InvalidTransitASTest_run_nil.
Qed.

Lemma ptr_equal_true (x y : option string) :
  Tests.ptr_equal x y = true <-> x = y.
Proof.
  destruct x as [a|], y as [b|]; simpl;
    try (split; [discriminate | intros H; discriminate H]);
    try (split; reflexivity).
  rewrite String.eqb_eq. split; [intros ->; reflexivity | intros [= ->]; reflexivity].
Qed.

(** X12: [TestNewRisLive] reports an error only when both the URL and the user
    agent of the constructed value are wrong: a constructor that returns a
    value with the right URL, or with the right user agent, passes, whatever
    its other fields hold. *)
Theorem TestNewRisLive_passes_iff
    (F L : Type) (rf : F) (URL UA : L -> option string)
    (NewRisLive : option string -> option string -> option string ->
                  option F -> option Z -> option L)
    (got : L) :
  NewRisLive (Some "http://blah") None (Some "foo") (Some rf) (Some 10)
    = Some got ->
  (Tests.NewRisLiveTest.TestNewRisLive F L rf URL UA NewRisLive
     = ([], Returned)
   <-> URL got = Some "http://blah" \/ UA got = Some "foo").
Proof.
  intros Hgot. unfold Tests.NewRisLiveTest.TestNewRisLive. rewrite Hgot.
  destruct (Tests.ptr_equal (URL got) (Some "http://blah")) eqn:Hu;
    destruct (Tests.ptr_equal (UA got) (Some "foo")) eqn:Ha; simpl.
  - apply ptr_equal_true in Hu. split; auto.
  - apply ptr_equal_true in Hu. split; auto.
  - apply ptr_equal_true in Ha. split; auto.
  - split; [discriminate|].
    intros [H|H]; apply ptr_equal_true in H; congruence.
Qed.

(** A constructor that keeps the URL and drops the user agent passes. *)
Lemma TestNewRisLive_passes_iff_witness :
  Tests.NewRisLiveTest.TestNewRisLive unit (option string * option string)
    tt fst snd (fun url _ _ _ _ => Some (url, None))
  = ([], Returned).
Proof.
  apply (proj2 (TestNewRisLive_passes_iff unit (option string * option string)
                  tt fst snd (fun url _ _ _ _ => Some (url, None))
                  (Some "http://blah", None) eq_refl)).
  left. reflexivity.
Defined.

(** X13: [MatchPrefix] of [rislive.go], put in the place of the method that
    [TestMatchPrefix] calls, gives the wanted answer in each of the eight
    cases: the test reports no error. *)
Theorem TestMatchPrefix_passes :
  Tests.MatchPrefixTest.TestMatchPrefix MatchPrefix = [].
Proof. vm_compute. reflexivity. Qed.
